(** * tcex/tcex_request.py: the request wrapper of the TcEx framework

    A shallow embedding of [session_retry] and of the class [TcExRequest]:
    the object's attributes are a record, every method is a computation in
    a state-and-exception monad over that record, and the calls that leave
    the module (the authorization callback, the session, the logger) are
    recorded in a trace. The methods of [requests] that the module calls
    are an interface, [Requests]; the dump [__str__] is left out. *)

From Stdlib Require Import Ascii String QArith ZifyNat.
From stdpp Require Import base option list gmap strings pretty.

#[local] Set Warnings "-register-all".

Local Open Scope string_scope.
Local Open Scope list_scope.
Local Open Scope Z_scope.

(** ** Python values *)

(** The values a caller can hand to the setters. A [PyStr] is a sequence of
    characters with code points below 256, a [PyBytes] a sequence of bytes;
    a [PyDict] keeps its items in insertion order. Floats are not
    modelled. *)
Inductive pyval : Type :=
  | PyNone
  | PyBool (b : bool)
  | PyInt (z : Z)
  | PyStr (s : string)
  | PyBytes (b : string)
  | PyList (l : list pyval)
  | PyDict (d : list (pyval * pyval)).

(** [isinstance(data, int)]: [bool] is a subclass of [int]. *)
Definition isinstance_int (data : pyval) : bool :=
  match data with
  | PyInt _ | PyBool _ => true
  | _ => false
  end.

(** [isinstance(data, dict)] *)
Definition isinstance_dict (data : pyval) : bool :=
  match data with
  | PyDict _ => true
  | _ => false
  end.

(** [data is not None] *)
Definition is_not_None (data : pyval) : bool :=
  match data with
  | PyNone => false
  | _ => true
  end.

(** The name of a value's type, as error messages print it. *)
Definition type_name (v : pyval) : string :=
  match v with
  | PyNone => "NoneType"
  | PyBool _ => "bool"
  | PyInt _ => "int"
  | PyStr _ => "str"
  | PyBytes _ => "bytes"
  | PyList _ => "list"
  | PyDict _ => "dict"
  end.

(** [len(v)]; [None] where Python raises [TypeError]. *)
Definition py_len (v : pyval) : option nat :=
  match v with
  | PyStr s | PyBytes s => Some (String.length s)
  | PyList l => Some (length l)
  | PyDict d => Some (length d)
  | PyNone | PyBool _ | PyInt _ => None
  end.

(** [str(n)] for a length. *)
Definition str_of_nat (n : nat) : string := pretty n.

(** [str(z)] for an [int]. *)
Definition str_of_Z (z : Z) : string := pretty z.

(** ** Exceptions *)

(** The exceptions of the module and of what it calls. [LibraryError] is any
    other class derived from [Exception] (the errors of [requests] and
    [urllib3] are such classes); [SystemExiting] is a class derived from
    [BaseException] only ([KeyboardInterrupt], [SystemExit],
    [GeneratorExit]). *)
Inductive exception : Type :=
  | AttributeError (msg : string)
  | TypeError (msg : string)
  | RuntimeError (msg : string)
  | LibraryError (cls msg : string)
  | SystemExiting (cls msg : string).

(** [isinstance(e, Exception)], what [except Exception] tests. *)
Definition isinstance_Exception (e : exception) : bool :=
  match e with
  | SystemExiting _ _ => false
  | _ => true
  end.

(** [str(e)], what ['{}'.format(e)] prints. *)
Definition str_of_exception (e : exception) : string :=
  match e with
  | AttributeError msg | TypeError msg | RuntimeError msg
  | LibraryError _ msg | SystemExiting _ msg => msg
  end.

(** The class of an exception. *)
Definition exception_class (e : exception) : string :=
  match e with
  | AttributeError _ => "AttributeError"
  | TypeError _ => "TypeError"
  | RuntimeError _ => "RuntimeError"
  | LibraryError cls _ | SystemExiting cls _ => cls
  end.

(** A call returns a value or raises. *)
Inductive outcome (A : Type) : Type :=
  | Return (a : A)
  | Raise (e : exception).
Arguments Return {A} a.
Arguments Raise {A} e.

(** ** Strings *)

(** [str.upper] on one character with a code point below 256: the letters
    a-z and the letters from 224 to 254, but the division sign 247, move
    down by 32, and the sharp s (223) becomes SS. The upper case of the
    micro sign (181) and of y with diaeresis (255) lies above 255, where
    this model has no characters: the two are left as they are, and
    [upper_modelled] says that a string has neither. *)
Definition upper_char (c : ascii) : string :=
  let n := nat_of_ascii c in
  if ((97 <=? n)%nat && (n <=? 122)%nat)
     || ((224 <=? n)%nat && (n <=? 254)%nat && negb (n =? 247)%nat)
  then String (ascii_of_nat (n - 32)) EmptyString
  else if (n =? 223)%nat then "SS"
  else String c EmptyString.

(** [s.upper()] *)
Fixpoint upper (s : string) : string :=
  match s with
  | EmptyString => EmptyString
  | String c s' => upper_char c +:+ upper s'
  end.

(** The strings on which [upper] is Python's [str.upper]: those without the
    two characters whose upper case is above 255. *)
Fixpoint upper_modelled (s : string) : bool :=
  match s with
  | EmptyString => true
  | String c s' =>
      negb (nat_of_ascii c =? 181)%nat && negb (nat_of_ascii c =? 255)%nat
      && upper_modelled s'
  end.

(** [str.lower] on one character with a code point below 256: the letters
    A-Z and the letters from 192 to 222, but the multiplication sign 215,
    move up by 32. *)
Definition lower_char (c : ascii) : ascii :=
  let n := nat_of_ascii c in
  if ((65 <=? n)%nat && (n <=? 90)%nat)
     || ((192 <=? n)%nat && (n <=? 222)%nat && negb (n =? 215)%nat)
  then ascii_of_nat (n + 32)
  else c.

(** [s.lower()] *)
Fixpoint lower (s : string) : string :=
  match s with
  | EmptyString => EmptyString
  | String c s' => String (lower_char c) (lower s')
  end.

(** [s.startswith(prefix)] *)
Definition startswith (s prefix : string) : bool := String.prefix prefix s.

(** [x in l] for strings *)
Definition str_in (x : string) (l : list string) : bool :=
  bool_decide (x ∈ l).

(** The character with code 34, the double quote. *)
Definition dquote : ascii := ascii_of_nat 34.

(** One hexadecimal digit, lower case as ['{0:04x}'] prints it. *)
Definition hex_digit (n : nat) : ascii :=
  match String.get n "0123456789abcdef" with
  | Some c => c
  | None => "0"%char
  end.

(** Whether a string has a character with the given code. *)
Fixpoint has_code (n : nat) (s : string) : bool :=
  match s with
  | EmptyString => false
  | String c s' => (nat_of_ascii c =? n)%nat || has_code n s'
  end.

(** [repr] of a string on one character, between quotes of code [quote]:
    the quote and the backslash take a backslash, tab, line feed and
    carriage return their letter, a character that is not printable (below
    32, from 127 to 160, and the soft hyphen 173) its code in hexadecimal,
    and the others stand for themselves. *)
Definition repr_char (quote : nat) (c : ascii) : string :=
  let n := nat_of_ascii c in
  if (n =? quote)%nat || (n =? 92)%nat then String "\" (String c "")
  else if (n =? 9)%nat then "\t"
  else if (n =? 10)%nat then "\n"
  else if (n =? 13)%nat then "\r"
  else if (n <? 32)%nat || ((127 <=? n)%nat && (n <=? 160)%nat) || (n =? 173)%nat
  then "\x" +:+ String (hex_digit (n / 16)) (String (hex_digit (n mod 16)) "")
  else String c "".

Fixpoint repr_chars (quote : nat) (s : string) : string :=
  match s with
  | EmptyString => EmptyString
  | String c s' => repr_char quote c +:+ repr_chars quote s'
  end.

(** [repr(s)] for a string, what [{s!r}] prints: between double quotes when
    the string has a single quote and no double quote, between single
    quotes otherwise. *)
Definition py_repr (s : string) : string :=
  let quote := if has_code 39 s && negb (has_code 34 s) then 34%nat else 39%nat in
  String (ascii_of_nat quote) (repr_chars quote s) +:+ String (ascii_of_nat quote) "".

(** [json.encoder.py_encode_basestring_ascii] on one character: the short
    escapes of [ESCAPE_DCT], the character itself between space and tilde,
    and a [\u00xx] escape for the rest. *)
Definition json_escape (c : ascii) : string :=
  let n := nat_of_ascii c in
  if (n =? 34)%nat then String "\" (String dquote "")
  else if (n =? 92)%nat then "\\"
  else if (n =? 8)%nat then "\b"
  else if (n =? 12)%nat then "\f"
  else if (n =? 10)%nat then "\n"
  else if (n =? 13)%nat then "\r"
  else if (n =? 9)%nat then "\t"
  else if (32 <=? n)%nat && (n <=? 126)%nat then String c ""
  else "\u00" +:+ String (hex_digit (n / 16)) (String (hex_digit (n mod 16)) "").

Fixpoint json_escape_all (s : string) : string :=
  match s with
  | EmptyString => EmptyString
  | String c s' => json_escape c +:+ json_escape_all s'
  end.

(** A JSON string literal. *)
Definition json_string (s : string) : string :=
  String dquote (json_escape_all s) +:+ String dquote "".

(** [', '.join(l)] *)
Fixpoint join_comma (l : list string) : string :=
  match l with
  | [] => ""
  | [x] => x
  | x :: l' => x +:+ ", " +:+ join_comma l'
  end.

(** The key of a JSON object item: a [str] as it is, an [int], a [bool] or
    [None] in its JSON spelling between quotes; another key raises. *)
Definition json_key (k : pyval) : outcome string :=
  match k with
  | PyStr s => Return (json_string s)
  | PyInt z => Return (json_string (str_of_Z z))
  | PyBool true => Return (json_string "true")
  | PyBool false => Return (json_string "false")
  | PyNone => Return (json_string "null")
  | _ => Raise (TypeError ("keys must be str, int, float, bool or None, not "
                           +:+ type_name k))
  end.

(** [json.dumps(data)] with the default options: no indentation, the
    separators [", "] and [": "], ASCII output. *)
Fixpoint json_dumps (data : pyval) : outcome string :=
  match data with
  | PyNone => Return "null"
  | PyBool true => Return "true"
  | PyBool false => Return "false"
  | PyInt z => Return (str_of_Z z)
  | PyStr s => Return (json_string s)
  | PyBytes _ => Raise (TypeError "Object of type bytes is not JSON serializable")
  | PyList l =>
      let items :=
        (fix items (l : list pyval) : outcome (list string) :=
           match l with
           | [] => Return []
           | x :: l' =>
               match json_dumps x with
               | Raise e => Raise e
               | Return s =>
                   match items l' with
                   | Raise e => Raise e
                   | Return ss => Return (s :: ss)
                   end
               end
           end) l in
      match items with
      | Raise e => Raise e
      | Return ss => Return ("[" +:+ join_comma ss +:+ "]")
      end
  | PyDict d =>
      let items :=
        (fix items (d : list (pyval * pyval)) : outcome (list string) :=
           match d with
           | [] => Return []
           | (k, v) :: d' =>
               match json_key k with
               | Raise e => Raise e
               | Return sk =>
                   match json_dumps v with
                   | Raise e => Raise e
                   | Return sv =>
                       match items d' with
                       | Raise e => Raise e
                       | Return ss => Return ((sk +:+ ": " +:+ sv) :: ss)
                       end
                   end
               end
           end) d in
      match items with
      | Raise e => Raise e
      | Return ss => Return ("{" +:+ join_comma ss +:+ "}")
      end
  end.

(** [s.encode('utf-8')] for code points below 256: one byte below 128, two
    bytes from there on. *)
Fixpoint encode_utf8 (s : string) : string :=
  match s with
  | EmptyString => EmptyString
  | String c s' =>
      let n := nat_of_ascii c in
      if (n <? 128)%nat then String c (encode_utf8 s')
      else String (ascii_of_nat (192 + n / 64))
             (String (ascii_of_nat (128 + n mod 64)) (encode_utf8 s'))
  end.

(** The base64 alphabet of RFC 4648. *)
Definition b64_digit (n : nat) : ascii :=
  match String.get n
          "ABCDEFGHIJKLMNOPQRSTUVWXYZabcdefghijklmnopqrstuvwxyz0123456789+/" with
  | Some c => c
  | None => "="%char
  end.

(** [base64.b64encode], its result read back as text. *)
Fixpoint b64encode (bytes : string) : string :=
  match bytes with
  | EmptyString => EmptyString
  | String a EmptyString =>
      let x := nat_of_ascii a in
      String (b64_digit (x / 4)) (String (b64_digit (x mod 4 * 16)) "==")
  | String a (String b EmptyString) =>
      let x := nat_of_ascii a in
      let y := nat_of_ascii b in
      String (b64_digit (x / 4))
        (String (b64_digit (x mod 4 * 16 + y / 16))
           (String (b64_digit (y mod 16 * 4)) "="))
  | String a (String b (String c rest)) =>
      let x := nat_of_ascii a in
      let y := nat_of_ascii b in
      let z := nat_of_ascii c in
      String (b64_digit (x / 4))
        (String (b64_digit (x mod 4 * 16 + y / 16))
           (String (b64_digit (y mod 16 * 4 + z / 64))
              (String (b64_digit (z mod 64)) (b64encode rest))))
  end.

(** ** The retry policy and the session *)

(** [urllib3.util.retry.Retry]: the counters ([None]: not bounded on its
    own), the backoff factor and the status codes that force a retry. The
    literal [0.3] is kept as the exact decimal. *)
Record Retry : Type := {
  total : option Z;
  connect : option Z;
  read : option Z;
  status : option Z;
  backoff_factor : Q;
  status_forcelist : list Z;
}.

(** [requests.adapters.HTTPAdapter(max_retries=...)] *)
Record HTTPAdapter : Type := { max_retries : Retry }.

(** [requests.Request(method=, url=, data=, files=, params=)] *)
Record Request : Type := {
  rq_method : string;
  rq_url : option string;
  rq_data : pyval;
  rq_files : pyval;
  rq_params : gmap string pyval;
}.

(** [requests.PreparedRequest]: what goes on the wire. *)
Record PreparedRequest : Type := {
  p_method : string;
  p_url : string;
  p_headers : gmap string string;
  p_body : pyval;
}.

(** [requests.Response] *)
Record Response : Type := {
  status_code : Z;
  content : string;
}.

(** [requests.Session]: its default headers, the adapters mounted by URL
    prefix, and what [session.send(request, proxies=, timeout=, verify=,
    stream=)] answers. *)
Record Session : Type := {
  session_headers : gmap string string;
  adapters : gmap string HTTPAdapter;
  session_send :
    PreparedRequest -> gmap string string -> pyval -> pyval -> bool ->
    outcome Response;
}.

(** [session.mount(prefix, adapter)] *)
Definition mount (prefix : string) (adapter : HTTPAdapter) (session : Session) : Session :=
  {| session_headers := session_headers session;
     adapters := <[prefix := adapter]> (adapters session);
     session_send := session_send session |}.

(** [session.headers.update(h)] *)
Definition session_headers_update (h : gmap string string) (session : Session) : Session :=
  {| session_headers := h ∪ session_headers session;
     adapters := adapters session;
     session_send := session_send session |}.

(** What the module uses of [requests]: the constructor [Session()], and
    the methods of a request that [send] calls. Their bodies are the
    library's; the development is stated over any implementation. *)
Class Requests : Type := {
  Session_new : Session;
  prepare : Request -> outcome PreparedRequest;
  prepare_headers : gmap string string -> PreparedRequest -> PreparedRequest;
  prepare_auth : string * string -> PreparedRequest -> PreparedRequest;
}.

(** [session_retry(retries, backoff_factor, status_forcelist, session)]. The
    source passes [total], [read] and [connect] to [Retry]; [status] is
    not passed and stays unset. *)
Definition session_retry {lib : Requests} (retries : Z) (backoff_factor : Q)
    (status_forcelist : list Z) (session : option Session) : Session :=
  let session := default Session_new session in
  let retries :=
    {| total := Some retries;
       read := Some retries;
       connect := Some retries;
       status := None;
       backoff_factor := backoff_factor;
       status_forcelist := status_forcelist |} in
  (* mount all https requests *)
  mount "https://" {| max_retries := retries |} session.

(** The default arguments of [session_retry]. *)
Definition default_retries : Z := 3.
Definition default_backoff_factor : Q := 3 # 10.
Definition default_status_forcelist : list Z := [500; 502; 504].

(** [session_retry()] *)
Definition session_retry_default {lib : Requests} : Session :=
  session_retry default_retries default_backoff_factor default_status_forcelist None.

(** ** The request object *)

(** The attributes of a [TcExRequest]. [_verify] is the one attribute that
    [__init__] does not create: [None] here is "no such attribute". The
    handle [tcex] is used for logging only, which the trace records. *)
Record TcExRequest : Type := {
  _authorization_method : option (PreparedRequest -> outcome (gmap string string));
  _basic_auth : option (string * string);
  _body : pyval;
  _content_type : option string;
  _headers : gmap string string;
  _http_method : string;
  _json : pyval;
  _payload : gmap string pyval;
  _proxies : gmap string string;
  _url : option string;
  _files : pyval;
  _timeout : pyval;
  _verify_ssl : pyval;
  _verify : option pyval;
  session : Session;
}.

(** The calls that leave the object, in the order they are made. *)
Inductive event : Type :=
  | EvAuthorization (request_prepped : PreparedRequest)
  | EvSessionSend (request_prepped : PreparedRequest)
      (proxies : gmap string string) (timeout verify : pyval) (stream : bool)
  | EvLogInfo (msg : string).

(** The object together with the calls made so far. *)
Record World : Type := {
  self : TcExRequest;
  trace : list event;
}.

(** A method: from a world to a result or an exception, and the world it
    leaves. An assignment made before a [raise] stays. *)
Definition M (A : Type) : Type := World -> outcome A * World.

#[global] Instance M_ret : MRet M := λ A a w, (Return a, w).

#[global] Instance M_bind : MBind M := λ A B f m w,
  match m w with
  | (Return a, w') => f a w'
  | (Raise e, w') => (Raise e, w')
  end.

#[global] Instance M_throw : MThrow exception M := λ A e w, (Raise e, w).

(** Read the object. *)
Definition get : M TcExRequest := λ w, (Return (self w), w).

(** Assign attributes of the object. *)
Definition modify (f : TcExRequest -> TcExRequest) : M unit :=
  λ w, (Return tt, {| self := f (self w); trace := trace w |}).

(** Record a call. *)
Definition emit (ev : event) : M unit :=
  λ w, (Return tt, {| self := self w; trace := trace w ++ [ev] |}).

(** The result of a call that may raise. *)
Definition call {A} (r : outcome A) : M A := λ w, (r, w).

(** [try: m except Exception as e: handler e]: an exception that is not an
    instance of [Exception] passes through. *)
Definition try_except_Exception {A} (m : M A) (handler : exception -> M A) : M A :=
  λ w,
    match m w with
    | (Return a, w') => (Return a, w')
    | (Raise e, w') =>
        if isinstance_Exception e then handler e w' else (Raise e, w')
    end.

(** *** Attribute assignment

    [assign_x v] is the statement [self.x = v]. No method of the class
    assigns [_json] or [_verify_ssl] after [__init__]. *)

Definition assign_authorization_method (v : option (PreparedRequest -> outcome (gmap string string))) (s : TcExRequest) : TcExRequest :=
  {| _authorization_method := v; _basic_auth := _basic_auth s;
     _body := _body s; _content_type := _content_type s;
     _headers := _headers s; _http_method := _http_method s;
     _json := _json s; _payload := _payload s; _proxies := _proxies s;
     _url := _url s; _files := _files s; _timeout := _timeout s;
     _verify_ssl := _verify_ssl s; _verify := _verify s;
     session := session s |}.

Definition assign_basic_auth (v : option (string * string)) (s : TcExRequest) : TcExRequest :=
  {| _authorization_method := _authorization_method s; _basic_auth := v;
     _body := _body s; _content_type := _content_type s;
     _headers := _headers s; _http_method := _http_method s;
     _json := _json s; _payload := _payload s; _proxies := _proxies s;
     _url := _url s; _files := _files s; _timeout := _timeout s;
     _verify_ssl := _verify_ssl s; _verify := _verify s;
     session := session s |}.

Definition assign_body (v : pyval) (s : TcExRequest) : TcExRequest :=
  {| _authorization_method := _authorization_method s;
     _basic_auth := _basic_auth s; _body := v;
     _content_type := _content_type s; _headers := _headers s;
     _http_method := _http_method s; _json := _json s;
     _payload := _payload s; _proxies := _proxies s; _url := _url s;
     _files := _files s; _timeout := _timeout s;
     _verify_ssl := _verify_ssl s; _verify := _verify s;
     session := session s |}.

Definition assign_content_type (v : option string) (s : TcExRequest) : TcExRequest :=
  {| _authorization_method := _authorization_method s;
     _basic_auth := _basic_auth s; _body := _body s; _content_type := v;
     _headers := _headers s; _http_method := _http_method s;
     _json := _json s; _payload := _payload s; _proxies := _proxies s;
     _url := _url s; _files := _files s; _timeout := _timeout s;
     _verify_ssl := _verify_ssl s; _verify := _verify s;
     session := session s |}.

Definition assign_headers (v : gmap string string) (s : TcExRequest) : TcExRequest :=
  {| _authorization_method := _authorization_method s;
     _basic_auth := _basic_auth s; _body := _body s;
     _content_type := _content_type s; _headers := v;
     _http_method := _http_method s; _json := _json s;
     _payload := _payload s; _proxies := _proxies s; _url := _url s;
     _files := _files s; _timeout := _timeout s;
     _verify_ssl := _verify_ssl s; _verify := _verify s;
     session := session s |}.

Definition assign_http_method (v : string) (s : TcExRequest) : TcExRequest :=
  {| _authorization_method := _authorization_method s;
     _basic_auth := _basic_auth s; _body := _body s;
     _content_type := _content_type s; _headers := _headers s;
     _http_method := v; _json := _json s; _payload := _payload s;
     _proxies := _proxies s; _url := _url s; _files := _files s;
     _timeout := _timeout s; _verify_ssl := _verify_ssl s;
     _verify := _verify s; session := session s |}.

Definition assign_payload (v : gmap string pyval) (s : TcExRequest) : TcExRequest :=
  {| _authorization_method := _authorization_method s;
     _basic_auth := _basic_auth s; _body := _body s;
     _content_type := _content_type s; _headers := _headers s;
     _http_method := _http_method s; _json := _json s; _payload := v;
     _proxies := _proxies s; _url := _url s; _files := _files s;
     _timeout := _timeout s; _verify_ssl := _verify_ssl s;
     _verify := _verify s; session := session s |}.

Definition assign_proxies (v : gmap string string) (s : TcExRequest) : TcExRequest :=
  {| _authorization_method := _authorization_method s;
     _basic_auth := _basic_auth s; _body := _body s;
     _content_type := _content_type s; _headers := _headers s;
     _http_method := _http_method s; _json := _json s;
     _payload := _payload s; _proxies := v; _url := _url s;
     _files := _files s; _timeout := _timeout s;
     _verify_ssl := _verify_ssl s; _verify := _verify s;
     session := session s |}.

Definition assign_url (v : option string) (s : TcExRequest) : TcExRequest :=
  {| _authorization_method := _authorization_method s;
     _basic_auth := _basic_auth s; _body := _body s;
     _content_type := _content_type s; _headers := _headers s;
     _http_method := _http_method s; _json := _json s;
     _payload := _payload s; _proxies := _proxies s; _url := v;
     _files := _files s; _timeout := _timeout s;
     _verify_ssl := _verify_ssl s; _verify := _verify s;
     session := session s |}.

Definition assign_files (v : pyval) (s : TcExRequest) : TcExRequest :=
  {| _authorization_method := _authorization_method s;
     _basic_auth := _basic_auth s; _body := _body s;
     _content_type := _content_type s; _headers := _headers s;
     _http_method := _http_method s; _json := _json s;
     _payload := _payload s; _proxies := _proxies s; _url := _url s;
     _files := v; _timeout := _timeout s; _verify_ssl := _verify_ssl s;
     _verify := _verify s; session := session s |}.

Definition assign_timeout (v : pyval) (s : TcExRequest) : TcExRequest :=
  {| _authorization_method := _authorization_method s;
     _basic_auth := _basic_auth s; _body := _body s;
     _content_type := _content_type s; _headers := _headers s;
     _http_method := _http_method s; _json := _json s;
     _payload := _payload s; _proxies := _proxies s; _url := _url s;
     _files := _files s; _timeout := v; _verify_ssl := _verify_ssl s;
     _verify := _verify s; session := session s |}.

Definition assign_verify (v : pyval) (s : TcExRequest) : TcExRequest :=
  {| _authorization_method := _authorization_method s;
     _basic_auth := _basic_auth s; _body := _body s;
     _content_type := _content_type s; _headers := _headers s;
     _http_method := _http_method s; _json := _json s;
     _payload := _payload s; _proxies := _proxies s; _url := _url s;
     _files := _files s; _timeout := _timeout s;
     _verify_ssl := _verify_ssl s; _verify := Some v; session := session s |}.

(** ** The methods of [TcExRequest] *)

(** [TcExRequest(tcex, session)]: the attributes as [__init__] sets them, on
    the session of [session_retry()] or on the one given, and nothing
    called yet. *)
Definition __init__ {lib : Requests} (session : option Session) : World :=
  let session0 := session_retry_default in
  let session1 := default session0 session in
  {| self :=
       {| _authorization_method := None;
          _basic_auth := None;
          _body := PyNone;
          _content_type := None;
          _headers := ∅;
          _http_method := "GET";
          _json := PyNone;
          _payload := ∅;
          _proxies := ∅;
          _url := None;
          _files := PyNone;
          _timeout := PyInt 300;
          _verify_ssl := PyBool false;
          _verify := None;
          session := session_headers_update {["User-Agent" := "TcEx"]} session1 |};
     trace := [] |}.

(** [add_header(key, val)]: [self._headers[key] = str(val)]. Every caller
    in the module passes a [str], of which [str] is the identity. *)
Definition add_header (key val : string) : M unit :=
  modify (λ s, assign_headers (<[key := val]> (_headers s)) s).

(** *** Body *)

Definition body : M pyval := s ← get; mret (_body s).

Definition body_setter (data : pyval) : M unit :=
  if is_not_None data then
    modify (assign_body data);;
    s ← get;
    match py_len (_body s) with
    | Some n => add_header "Content-Length" (str_of_nat n)
    | None =>
        mthrow (TypeError ("object of type '" +:+ type_name (_body s)
                           +:+ "' has no len()"))
    end
  else mret tt.

Definition json : M pyval := s ← get; mret (_body s).

Definition json_setter (data : pyval) : M unit :=
  if is_not_None data then
    dumped ← call (json_dumps data);
    modify (assign_body (PyStr dumped));;
    add_header "Content-Type" "application/json"
  else mret tt.

(** *** HTTP headers *)

Definition headers : M (gmap string string) := s ← get; mret (_headers s).

Definition reset_headers : M unit := modify (assign_headers ∅).

Definition authorization : M (option string) :=
  s ← get; mret (_headers s !! "Authorization").

Definition authorization_setter (data : string) : M unit :=
  add_header "Authorization" data.

Definition authorization_method
    (method : PreparedRequest -> outcome (gmap string string)) : M unit :=
  modify (assign_authorization_method (Some method)).

Definition basic_auth : M (option (string * string)) :=
  s ← get; mret (_basic_auth s).

Definition basic_auth_setter (data : option (string * string)) : M unit :=
  modify (assign_basic_auth data).

Definition content_type : M (option string) := s ← get; mret (_content_type s).

Definition content_type_setter (data : string) : M unit :=
  modify (assign_content_type (Some data));;
  add_header "Content-Type" data.

(** ['Basic {}'.format(credentials)] on the base64 text of
    [username:password]. *)
Definition basic_credentials (username password : string) : string :=
  "Basic " +:+ b64encode (encode_utf8 (username +:+ ":" +:+ password)).

Definition set_basic_auth (username password : string) : M unit :=
  authorization_setter (basic_credentials username password).

Definition user_agent : M (option string) :=
  s ← get; mret (_headers s !! "User-agent").

Definition user_agent_setter (data : string) : M unit :=
  add_header "User-agent" data.

(** *** HTTP payload *)

Definition payload : M (gmap string pyval) := s ← get; mret (_payload s).

Definition reset_payload : M unit := modify (assign_payload ∅).

(** [add_payload(key, val, append)]. With [append],
    [self._payload.setdefault(key, []).append(val)]: a missing key starts
    from the empty list, a list grows at its end, and a value that is not a
    list has no [append]. *)
Definition add_payload (key : string) (val : pyval) (append : bool) : M unit :=
  if append then
    s ← get;
    match default (PyList []) (_payload s !! key) with
    | PyList l => modify (assign_payload (<[key := PyList (l ++ [val])]> (_payload s)))
    | other =>
        mthrow (AttributeError ("'" +:+ type_name other
                                +:+ "' object has no attribute 'append'"))
    end
  else
    modify (λ s, assign_payload (<[key := val]> (_payload s)) s).

(** *** HTTP method *)

Definition http_method : M string := s ← get; mret (_http_method s).

Definition http_method_setter (data : string) : M unit :=
  let data := upper data in
  if str_in data ["DELETE"; "GET"; "POST"; "PUT"] then
    modify (assign_http_method data);;
    (* set content type for commit methods (best guess) *)
    s ← get;
    if bool_decide (_content_type s = None) && str_in data ["POST"; "PUT"] then
      add_header "Content-Type" "application/json"
    else mret tt
  else
    mthrow (AttributeError ("Request Object Error: " +:+ data
                            +:+ " is not a valid HTTP method.")).

(** *** Send properties *)

Definition proxies : M (gmap string string) := s ← get; mret (_proxies s).

Definition proxies_setter (data : gmap string string) : M unit :=
  modify (assign_proxies data).

Definition timeout : M pyval := s ← get; mret (_timeout s).

Definition timeout_setter (data : pyval) : M unit :=
  if isinstance_int data then modify (assign_timeout data) else mret tt.

(** The getter returns [self._verify]; reading an attribute that was never
    assigned raises [AttributeError]. *)
Definition verify_ssl : M pyval :=
  s ← get;
  match _verify s with
  | Some v => mret v
  | None => mthrow (AttributeError "'TcExRequest' object has no attribute '_verify'")
  end.

Definition verify_ssl_setter (verify : pyval) : M unit :=
  modify (assign_verify verify).

Definition files : M pyval := s ← get; mret (_files s).

Definition files_setter (data : pyval) : M unit :=
  if isinstance_dict data then modify (assign_files data) else mret tt.

(** *** URL *)

Definition url : M (option string) := s ← get; mret (_url s).

Definition url_setter (data : string) : M unit := modify (assign_url (Some data)).

(** *** Send *)

(** The message of the error that wraps a failure of the session. *)
Definition failed_request_message (e : exception) : string :=
  "Failed making HTTP request (" +:+ str_of_exception e +:+ ").".

(** [Request(method=self._http_method, url=self._url, data=self._body,
    files=self._files, params=self._payload)] *)
Definition api_request (s : TcExRequest) : Request :=
  {| rq_method := _http_method s; rq_url := _url s; rq_data := _body s;
     rq_files := _files s; rq_params := _payload s |}.

Definition send {lib : Requests} (stream : bool) : M Response :=
  s ← get;
  (* prepare request *)
  request_prepped ← call (prepare (api_request s));
  (* add authorization header returned by authorization method *)
  match _authorization_method s with
  | Some method =>
      emit (EvAuthorization request_prepped);;
      returned ← call (method request_prepped);
      modify (λ s, assign_headers (returned ∪ _headers s) s)
  | None => mret tt
  end;;
  s ← get;
  let request_prepped := prepare_headers (_headers s) request_prepped in
  let request_prepped :=
    match _basic_auth s with
    | Some auth => prepare_auth auth request_prepped
    | None => request_prepped
    end in
  (* api request *)
  response ←
    try_except_Exception
      (emit (EvSessionSend request_prepped (_proxies s) (_timeout s)
               (_verify_ssl s) stream);;
       call (session_send (session s) request_prepped (_proxies s) (_timeout s)
               (_verify_ssl s) stream))
      (λ e, mthrow (RuntimeError (failed_request_message e)));
  emit (EvLogInfo ("Status Code: " +:+ str_of_Z (status_code response)));;
  mret response.

(** ** The transport's retry loop *)

(** What one attempt of the transport ends in. *)
Inductive attempt : Type :=
  | ConnectionFailed
  | ReadTimedOut
  | Responded (status : Z).

(** One retry less on a counter that is set. *)
Definition decrement (counter : option Z) : option Z := (λ n, n - 1) <$> counter.

(** A counter that is set and has gone below zero. *)
Definition below_zero (counter : option Z) : bool :=
  match counter with
  | Some n => bool_decide (n < 0)
  | None => false
  end.

(** Modelled from the spec: the retry loop is [urllib3]'s and is not part of
    the module. Section 4.1: retries are triggered by connection failures,
    read timeouts, and responses whose status is in the retryable set; no
    other response is retried. *)
Definition is_retry (policy : Retry) (a : attempt) : bool :=
  match a with
  | ConnectionFailed | ReadTimedOut => true
  | Responded code => bool_decide (code ∈ status_forcelist policy)
  end.

(** Modelled from the spec: the retry loop is [urllib3]'s and is not part of
    the module. Section 4.1: the total budget is shared by the three kinds
    of retry, and each kind has a bound of its own; a retry takes one from
    the total and one from the counter of its kind. *)
Definition increment (a : attempt) (policy : Retry) : Retry :=
  {| total := decrement (total policy);
     connect :=
       match a with ConnectionFailed => decrement (connect policy) | _ => connect policy end;
     read :=
       match a with ReadTimedOut => decrement (read policy) | _ => read policy end;
     status :=
       match a with Responded _ => decrement (status policy) | _ => status policy end;
     backoff_factor := backoff_factor policy;
     status_forcelist := status_forcelist policy |}.

(** Modelled from the spec: the retry loop is [urllib3]'s and is not part of
    the module. Section 4.1: the budget is exhausted once a counter would go
    below zero. *)
Definition is_exhausted (policy : Retry) : bool :=
  below_zero (total policy) || below_zero (connect policy)
  || below_zero (read policy) || below_zero (status policy).

(** Modelled from the spec: the retry loop is [urllib3]'s and is not part of
    the module. Section 4.1: an attempt that triggers a retry is repeated
    while the budget lasts; after that, or on any other attempt, the last
    observed attempt is surfaced. [server n] is what attempt number [n]
    ends in; the result is the attempts that were retried and the one
    surfaced, [None] when [fuel] attempts did not suffice. *)
Fixpoint urlopen (fuel : nat) (policy : Retry) (server : nat -> attempt) (n : nat)
    : option (list attempt * attempt) :=
  match fuel with
  | O => None
  | S fuel' =>
      let a := server n in
      if is_retry policy a then
        let policy' := increment a policy in
        if is_exhausted policy' then Some ([], a)
        else
          match urlopen fuel' policy' server (S n) with
          | Some (retried, final) => Some (a :: retried, final)
          | None => None
          end
      else Some ([], a)
  end.




(** ** A reference implementation of the library interface

    Enough of [requests] to run the methods on concrete requests: [prepare]
    refuses a missing URL and otherwise keeps method, URL and body as they
    are, with no header; [prepare_headers] replaces the headers of the
    prepared request by the map; [prepare_auth] sets the [Authorization]
    header to the Basic credentials. A session answers every request the
    same way. *)

Definition constant_session (answer : outcome Response) : Session :=
  {| session_headers := ∅; adapters := ∅;
     session_send := λ _ _ _ _ _, answer |}.

Definition ok_response : Response := {| status_code := 200; content := "" |}.

Definition reference_prepare (r : Request) : outcome PreparedRequest :=
  match rq_url r with
  | None => Raise (LibraryError "MissingSchema" "Invalid URL 'None': No scheme supplied.")
  | Some u =>
      Return {| p_method := rq_method r; p_url := u; p_headers := ∅;
                p_body := rq_data r |}
  end.

Definition reference_prepare_headers (h : gmap string string) (p : PreparedRequest)
    : PreparedRequest :=
  {| p_method := p_method p; p_url := p_url p; p_headers := h; p_body := p_body p |}.

Definition reference_prepare_auth (auth : string * string) (p : PreparedRequest)
    : PreparedRequest :=
  {| p_method := p_method p; p_url := p_url p;
     p_headers := <["Authorization" := basic_credentials auth.1 auth.2]> (p_headers p);
     p_body := p_body p |}.

Definition reference_requests : Requests :=
  {| Session_new := constant_session (Return ok_response);
     prepare := reference_prepare;
     prepare_headers := reference_prepare_headers;
     prepare_auth := reference_prepare_auth |}.

(** Running a method from a world: the result, and the world left. *)
Definition run {A} (m : M A) (w : World) : outcome A * World := m w.

(** The world a method leaves. *)
Definition exec {A} (m : M A) (w : World) : World := (run m w).2.

(** The arguments [verify=] of the calls of the session in a trace. *)
Definition verify_arguments (t : list event) : list pyval :=
  omap (λ ev, match ev with EvSessionSend _ _ _ v _ => Some v | _ => None end) t.

(** The prepared requests the authorization callback was invoked on. *)
Definition authorization_calls (t : list event) : list PreparedRequest :=
  omap (λ ev, match ev with EvAuthorization p => Some p | _ => None end) t.

(** The prepared requests handed to the session. *)
Definition sent_requests (t : list event) : list PreparedRequest :=
  omap (λ ev, match ev with EvSessionSend p _ _ _ _ => Some p | _ => None end) t.

(** A value that is absent or empty: [None], or a value of length zero. *)
Definition absent_or_empty (data : pyval) : Prop :=
  data = PyNone ∨ py_len data = Some 0%nat.

(** The request that [send] hands to the session: the prepared request
    with the header map applied, the headers [returned] by the callback
    merged in first, and then the basic authentication if there is one. *)
Definition final_request {lib : Requests} (s : TcExRequest)
    (returned : gmap string string) (request_prepped : PreparedRequest)
    : PreparedRequest :=
  let with_headers := prepare_headers (returned ∪ _headers s) request_prepped in
  match _basic_auth s with
  | Some auth => prepare_auth auth with_headers
  | None => with_headers
  end.

(** The callback, when there is one, returned [returned] on the prepared
    request; without a callback nothing is merged. *)
Definition authorization_returned (s : TcExRequest)
    (request_prepped : PreparedRequest) (returned : gmap string string) : Prop :=
  match _authorization_method s with
  | Some method => method request_prepped = Return returned
  | None => returned = ∅
  end.

(** A callback that returns a bearer token, and the request that the
    reference library prepares for a fresh object with a URL. *)
Definition bearer_callback (_ : PreparedRequest) : outcome (gmap string string) :=
  Return {["Authorization" := "Bearer t"]}.

Definition example_url : string := "https://api.example/".

Definition example_prepared : PreparedRequest :=
  {| p_method := "GET"; p_url := example_url; p_headers := ∅; p_body := PyNone |}.

(** The calls [send] makes before the session answers. *)
Definition calls_of_send {lib : Requests} (s : TcExRequest) (returned : gmap string string)
    (request_prepped : PreparedRequest) (stream : bool) : list event :=
  match _authorization_method s with
  | Some _ => [EvAuthorization request_prepped]
  | None => []
  end
  ++ [EvSessionSend (final_request s returned request_prepped)
        (_proxies s) (_timeout s) (_verify_ssl s) stream].

(** The policy that [session_retry()] builds from its default arguments. *)
Definition default_policy : Retry :=
  {| total := Some 3; connect := Some 3; read := Some 3; status := None;
     backoff_factor := 3 # 10; status_forcelist := [500; 502; 504] |}.

(** ** Sequences of method calls

    The methods that can change the object or call out, with their
    arguments; the getters change nothing and are left out. *)
Inductive method_call : Type :=
  | Call_body_setter (data : pyval)
  | Call_json_setter (data : pyval)
  | Call_reset_headers
  | Call_add_header (key val : string)
  | Call_authorization_setter (data : string)
  | Call_authorization_method (method : PreparedRequest -> outcome (gmap string string))
  | Call_basic_auth_setter (data : option (string * string))
  | Call_content_type_setter (data : string)
  | Call_set_basic_auth (username password : string)
  | Call_user_agent_setter (data : string)
  | Call_reset_payload
  | Call_add_payload (key : string) (val : pyval) (append : bool)
  | Call_http_method_setter (data : string)
  | Call_proxies_setter (data : gmap string string)
  | Call_timeout_setter (data : pyval)
  | Call_verify_ssl_setter (verify : pyval)
  | Call_files_setter (data : pyval)
  | Call_url_setter (data : string)
  | Call_send (stream : bool).

(** One call, its result dropped. *)
Definition perform {lib : Requests} (c : method_call) : M unit :=
  match c with
  | Call_body_setter data => body_setter data
  | Call_json_setter data => json_setter data
  | Call_reset_headers => reset_headers
  | Call_add_header key val => add_header key val
  | Call_authorization_setter data => authorization_setter data
  | Call_authorization_method method => authorization_method method
  | Call_basic_auth_setter data => basic_auth_setter data
  | Call_content_type_setter data => content_type_setter data
  | Call_set_basic_auth username password => set_basic_auth username password
  | Call_user_agent_setter data => user_agent_setter data
  | Call_reset_payload => reset_payload
  | Call_add_payload key val append => add_payload key val append
  | Call_http_method_setter data => http_method_setter data
  | Call_proxies_setter data => proxies_setter data
  | Call_timeout_setter data => timeout_setter data
  | Call_verify_ssl_setter verify => verify_ssl_setter verify
  | Call_files_setter data => files_setter data
  | Call_url_setter data => url_setter data
  | Call_send stream => send stream;; mret tt
  end.

(** A caller that makes the calls one after the other and goes on after an
    exception: each call starts from the world the one before left. *)
Fixpoint perform_all {lib : Requests} (calls : list method_call) (w : World) : World :=
  match calls with
  | [] => w
  | c :: calls' => perform_all calls' (exec (perform c) w)
  end.

(** The messages logged in a trace. *)
Definition log_messages (t : list event) : list string :=
  omap (λ ev, match ev with EvLogInfo msg => Some msg | _ => None end) t.

(** The methods that [http_method] accepts. *)
Definition valid_methods : list string := ["DELETE"; "GET"; "POST"; "PUT"].

(** A callback that fails. *)
Definition failing_callback (_ : PreparedRequest) : outcome (gmap string string) :=
  Raise (LibraryError "ValueError" "no token").

(** ** Reading base64 back

    The decoding of RFC 4648, to state what the credentials of
    [set_basic_auth] carry: the value of a digit, and the bytes of a text
    of groups of four digits, the last group padded with one or two [=]. *)
Definition b64_value (c : ascii) : option nat :=
  let n := nat_of_ascii c in
  if (65 <=? n)%nat && (n <=? 90)%nat then Some (n - 65)%nat
  else if (97 <=? n)%nat && (n <=? 122)%nat then Some (n - 71)%nat
  else if (48 <=? n)%nat && (n <=? 57)%nat then Some (n + 4)%nat
  else if (n =? 43)%nat then Some 62%nat
  else if (n =? 47)%nat then Some 63%nat
  else None.

Definition is_pad (c : ascii) : bool := (nat_of_ascii c =? 61)%nat.

Fixpoint b64decode (text : string) : option string :=
  match text with
  | EmptyString => Some EmptyString
  | String c1 (String c2 (String c3 (String c4 rest))) =>
      match b64_value c1, b64_value c2 with
      | Some d1, Some d2 =>
          let b1 := ascii_of_nat (d1 * 4 + d2 / 16) in
          match b64_value c3 with
          | None =>
              if is_pad c3 && is_pad c4 && bool_decide (rest = EmptyString)
              then Some (String b1 EmptyString) else None
          | Some d3 =>
              let b2 := ascii_of_nat (d2 mod 16 * 16 + d3 / 4) in
              match b64_value c4 with
              | None =>
                  if is_pad c4 && bool_decide (rest = EmptyString)
                  then Some (String b1 (String b2 EmptyString)) else None
              | Some d4 =>
                  let b3 := ascii_of_nat (d3 mod 4 * 64 + d4) in
                  match b64decode rest with
                  | Some s => Some (String b1 (String b2 (String b3 s)))
                  | None => None
                  end
              end
          end
      | _, _ => None
      end
  | _ => None
  end.

(** ** Properties *)

(** Unfolding the operations of the monad. *)
Ltac run_monad :=
  unfold exec, run, mbind, M_bind, mret, M_ret, mthrow, M_throw,
    get, modify, emit, call in *;
  cbn [fst snd self trace] in *.

(** Case analysis on what the session answers. *)
Ltac case_session_send :=
  match goal with
  | |- context [session_send ?x1 ?x2 ?x3 ?x4 ?x5 ?x6] =>
      destruct (session_send x1 x2 x3 x4 x5 x6) as [?|?] eqn:?
  end.

(** *** The TLS verification setting *)

(** The setter writes [_verify] and leaves [_verify_ssl] as it was. *)
Lemma verify_ssl_setter_keeps_verify_ssl (verify : pyval) (w : World) :
  _verify_ssl (self (exec (verify_ssl_setter verify) w)) = _verify_ssl (self w)
  ∧ run verify_ssl (exec (verify_ssl_setter verify) w)
    = (Return verify, exec (verify_ssl_setter verify) w).
Proof. by unfold verify_ssl_setter, verify_ssl; run_monad. Qed.

(** Whatever [send] hands to the session as [verify=] is [_verify_ssl]. *)
Lemma send_verify_argument {lib : Requests} (stream : bool) (w : World) :
  ∃ new, trace (exec (send stream) w) = trace w ++ new
         ∧ Forall (λ v, v = _verify_ssl (self w)) (verify_arguments new).
Proof.
  destruct w as [s t]. unfold send, try_except_Exception. run_monad.
  destruct (prepare (api_request s)) as [p|e]; cbn;
    [|exists []; by rewrite app_nil_r].
  destruct (_authorization_method s) as [method|]; cbn.
  - destruct (method p) as [returned|e]; cbn;
      [|exists [EvAuthorization p]; split; [done|constructor]].
    case_session_send; cbn.
    + eexists. rewrite <- !app_assoc. split; [done|]. cbn. by repeat constructor.
    + destruct (isinstance_Exception _); cbn;
        (eexists; rewrite <- !app_assoc; split; [done|]; cbn; by repeat constructor).
  - case_session_send; cbn.
    + eexists. rewrite <- !app_assoc. split; [done|]. cbn. by repeat constructor.
    + destruct (isinstance_Exception _); cbn;
        (eexists; split; [done|]; cbn; by repeat constructor).
Qed.

(** C1, at the input that breaks it: on a fresh object with a URL, after
    [verify_ssl = True] the getter returns [True], and [send] still hands
    [verify=False] to the session. *)
Theorem send_ignores_verify_ssl_setter :
  let w := exec (url_setter example_url;; verify_ssl_setter (PyBool true))
             (__init__ (lib := reference_requests) None) in
  run verify_ssl w = (Return (PyBool true), w)
  ∧ verify_arguments (trace (exec (send (lib := reference_requests) false) w))
    = [PyBool false].
Proof. vm_compute. done. Qed.

(** C10: on a freshly constructed object the getter [verify_ssl] raises
    [AttributeError]: it reads [_verify], and [__init__] creates
    [_verify_ssl] only. *)
Theorem verify_ssl_getter_raises_on_fresh_object {lib : Requests} (session : option Session) :
  _verify (self (__init__ session)) = None
  ∧ _verify_ssl (self (__init__ session)) = PyBool false
  ∧ run verify_ssl (__init__ session)
    = (Raise (AttributeError "'TcExRequest' object has no attribute '_verify'"),
       __init__ session).
Proof. done. Qed.

(** *** Setters that ignore or refuse a value *)

(** C8: assigning a value that is not an [int] to [timeout], or one that is
    not a [dict] to [files], returns normally and leaves the object as it
    was; on a fresh object the timeout is 300 and there are no files. *)
Theorem timeout_files_setters_ignore {lib : Requests} (w : World) (data1 data2 : pyval)
    (session : option Session)
    (Hint : isinstance_int data1 = false)
    (Hdict : isinstance_dict data2 = false) :
  run (timeout_setter data1) w = (Return tt, w)
  ∧ run (files_setter data2) w = (Return tt, w)
  ∧ run timeout (exec (timeout_setter data1) (__init__ session))
    = (Return (PyInt 300), __init__ session)
  ∧ run files (exec (files_setter data2) (__init__ session))
    = (Return PyNone, __init__ session).
Proof.
  unfold timeout_setter, files_setter, timeout, files.
  rewrite Hint, Hdict. by run_monad.
Qed.

Lemma timeout_files_setters_ignore_witness :
  isinstance_int (PyStr "abc") = false
  ∧ isinstance_dict (PyList [PyStr "report.pdf"]) = false
  ∧ run (timeout_setter (PyStr "abc")) (__init__ (lib := reference_requests) None)
    = (Return tt, __init__ (lib := reference_requests) None).
Proof.
  split; [reflexivity|]. split; [reflexivity|].
  exact (proj1 (timeout_files_setters_ignore (lib := reference_requests)
                  (__init__ (lib := reference_requests) None)
                  (PyStr "abc") (PyList [PyStr "report.pdf"]) None
                  eq_refl eq_refl)).
Defined.

(** An [int] is stored, and so is a [bool], which is an [int] to
    [isinstance]. *)
Lemma timeout_setter_stores_int (w : World) (data : pyval) :
  isinstance_int data = true →
  run timeout (exec (timeout_setter data) w)
  = (Return data, exec (timeout_setter data) w).
Proof. intros Hint. unfold timeout_setter, timeout. rewrite Hint. by run_monad. Qed.


(** The four methods in lower case are stored in upper case; PATCH is
    refused before anything is sent. *)
Example http_method_setter_post :
  let w := exec (http_method_setter "post") (__init__ (lib := reference_requests) None) in
  _http_method (self w) = "POST"
  ∧ _headers (self w) = {["Content-Type" := "application/json"]}.
Proof. vm_compute. done. Qed.

(** The test is on [_content_type], which only the setter of [content_type]
    assigns: a Content-Type written with [add_header] is replaced. *)
Example http_method_setter_replaces_added_header :
  let w := exec (add_header "Content-Type" "text/xml";; http_method_setter "put")
             (__init__ (lib := reference_requests) None) in
  _headers (self w) = {["Content-Type" := "application/json"]}.
Proof. vm_compute. done. Qed.

Example http_method_setter_keeps_content_type :
  let w := exec (content_type_setter "text/xml";; http_method_setter "put")
             (__init__ (lib := reference_requests) None) in
  _http_method (self w) = "PUT"
  ∧ _headers (self w) = {["Content-Type" := "text/xml"]}.
Proof. vm_compute. done. Qed.

Example http_method_setter_patch :
  run (http_method_setter "patch") (__init__ (lib := reference_requests) None)
  = (Raise (AttributeError "Request Object Error: PATCH is not a valid HTTP method."),
     __init__ (lib := reference_requests) None).
Proof. vm_compute. done. Qed.

(** *** Body and JSON body *)

(** C5 as stated fails on the empty string: it is empty, and assigning it
    to [body] of a fresh object stores it and sets Content-Length to 0. *)
Lemma body_setter_stores_empty_string :
  let w := __init__ (lib := reference_requests) None in
  absent_or_empty (PyStr "")
  ∧ run (body_setter (PyStr "")) w ≠ (Return tt, w)
  ∧ _body (self w) = PyNone
  ∧ _headers (self w) !! "Content-Length" = None
  ∧ _body (self (exec (body_setter (PyStr "")) w)) = PyStr ""
  ∧ _headers (self (exec (body_setter (PyStr "")) w)) !! "Content-Length" = Some "0".
Proof.
  cbv zeta. split; [by right|]. split; [|by vm_compute].
  intros Heq. apply (f_equal (λ r, _body (self r.2))) in Heq.
  vm_compute in Heq. discriminate.
Qed.

(** What the setter of [body] does with a value that has a length. *)
Lemma body_setter_sized (w : World) (data : pyval) (n : nat) :
  py_len data = Some n →
  run (body_setter data) w
  = (Return tt,
     {| self := assign_headers (<["Content-Length" := str_of_nat n]> (_headers (self w)))
                  (assign_body data (self w));
        trace := trace w |}).
Proof.
  intros Hlen. unfold body_setter, add_header.
  destruct data; try discriminate Hlen; run_monad; cbn [_body assign_body];
    rewrite Hlen; by cbn.
Qed.

(** What the setter of [json] does with a value that is serialized. *)
Lemma json_setter_dumped (w : World) (data : pyval) (dumped : string) :
  data ≠ PyNone →
  json_dumps data = Return dumped →
  run (json_setter data) w
  = (Return tt,
     {| self := assign_headers (<["Content-Type" := "application/json"]> (_headers (self w)))
                  (assign_body (PyStr dumped) (self w));
        trace := trace w |}).
Proof.
  intros Hdata Hdumps. unfold json_setter, add_header.
  destruct data; try congruence; run_monad; rewrite Hdumps; by cbn.
Qed.

(** C5, amended: assigning [None] to [body] leaves the object as it was;
    assigning a value that has a length, the empty string included, stores
    it as the body and sets the header Content-Length to the decimal text of
    that length. *)
Theorem body_setter_spec (w : World) (data : pyval) (n : nat)
    (Hlen : py_len data = Some n) :
  run (body_setter PyNone) w = (Return tt, w)
  ∧ (run (body_setter data) w).1 = Return tt
  ∧ _body (self (exec (body_setter data) w)) = data
  ∧ _headers (self (exec (body_setter data) w))
    = <["Content-Length" := str_of_nat n]> (_headers (self w))
  ∧ trace (exec (body_setter data) w) = trace w.
Proof.
  split; [done|]. unfold exec.
  by rewrite (body_setter_sized w data n Hlen).
Qed.

Lemma body_setter_spec_witness :
  py_len (PyStr "") = Some 0%nat
  ∧ _headers (self (exec (body_setter (PyStr "")) (__init__ (lib := reference_requests) None)))
    = <["Content-Length" := str_of_nat 0]>
        (_headers (self (__init__ (lib := reference_requests) None))).
Proof.
  split; [reflexivity|].
  exact (proj1 (proj2 (proj2 (proj2
           (body_setter_spec (__init__ (lib := reference_requests) None)
              (PyStr "") 0 eq_refl))))).
Defined.

(** A value without a length is stored all the same, and then [len]
    raises. *)
Example body_setter_int :
  let w := __init__ (lib := reference_requests) None in
  (run (body_setter (PyInt 5)) w).1
  = Raise (TypeError "object of type 'int' has no len()")
  ∧ _body (self (exec (body_setter (PyInt 5)) w)) = PyInt 5.
Proof. vm_compute. done. Qed.

(** C6: assigning a value other than [None] that [json.dumps] serializes to
    [json] stores the text in [_body], which both [body] and [json] read,
    and sets Content-Type to application/json; assigning a sized value to
    [body] afterwards replaces the text and keeps that Content-Type. *)
Theorem json_setter_then_body_setter (w : World) (data data' : pyval)
    (dumped : string) (n : nat)
    (Hdata : data ≠ PyNone)
    (Hdumps : json_dumps data = Return dumped)
    (Hlen : py_len data' = Some n) :
  let w1 := exec (json_setter data) w in
  let w2 := exec (body_setter data') w1 in
  (run (json_setter data) w).1 = Return tt
  ∧ run body w1 = (Return (PyStr dumped), w1)
  ∧ run json w1 = (Return (PyStr dumped), w1)
  ∧ _headers (self w1) = <["Content-Type" := "application/json"]> (_headers (self w))
  ∧ (run (body_setter data') w1).1 = Return tt
  ∧ run body w2 = (Return data', w2)
  ∧ _headers (self w2) !! "Content-Type" = Some "application/json".
Proof.
  cbv zeta. unfold exec.
  rewrite (json_setter_dumped w data dumped Hdata Hdumps). cbn [fst snd].
  rewrite (body_setter_sized _ data' n Hlen). cbn [fst snd].
  repeat split.
  cbn. rewrite lookup_insert_ne by done. by rewrite lookup_insert_eq.
Qed.

Lemma json_setter_then_body_setter_witness :
  let data := PyDict [(PyStr "a", PyInt 1)] in
  let w := __init__ (lib := reference_requests) None in
  data ≠ PyNone
  ∧ json_dumps data = Return (String "{" (json_string "a" +:+ ": 1}"))
  ∧ py_len (PyStr "hello") = Some 5%nat
  ∧ _headers (self (exec (body_setter (PyStr "hello")) (exec (json_setter data) w)))
      !! "Content-Type" = Some "application/json".
Proof.
  cbv zeta. split; [discriminate|]. split; [reflexivity|]. split; [reflexivity|].
  refine (proj2 (proj2 (proj2 (proj2 (proj2 (proj2
    (json_setter_then_body_setter (__init__ (lib := reference_requests) None)
       (PyDict [(PyStr "a", PyInt 1)]) (PyStr "hello")
       (String "{" (json_string "a" +:+ ": 1}")) 5 _ eq_refl eq_refl))))))).
  discriminate.
Defined.

(** *** Payload *)

(** C7: without [append] the value replaces whatever the key had, so [x]
    then [y] leaves [y]; with [append] on a key that is not in the payload,
    [x] then [y] leaves the list of [x] and [y]. *)
Theorem add_payload_spec (w w' : World) (key : string) (x y : pyval)
    (Hfresh : _payload (self w) !! key = None) :
  run (add_payload key y false) w'
  = (Return tt,
     {| self := assign_payload (<[key := y]> (_payload (self w'))) (self w');
        trace := trace w' |})
  ∧ _payload (self (exec (add_payload key x false;; add_payload key y false) w'))
    = <[key := y]> (_payload (self w'))
  ∧ (run (add_payload key x true;; add_payload key y true) w).1 = Return tt
  ∧ _payload (self (exec (add_payload key x true;; add_payload key y true) w))
    = <[key := PyList [x; y]]> (_payload (self w)).
Proof.
  unfold add_payload. run_monad. cbn.
  rewrite Hfresh. run_monad. cbn.
  rewrite lookup_insert_eq. cbn.
  by rewrite !insert_insert_eq.
Qed.

Lemma add_payload_spec_witness :
  let w := __init__ (lib := reference_requests) None in
  _payload (self w) !! "tag" = None
  ∧ _payload (self (exec (add_payload "tag" (PyStr "x") false;;
                          add_payload "tag" (PyStr "y") false) w))
    = <["tag" := PyStr "y"]> ∅
  ∧ _payload (self (exec (add_payload "tag" (PyStr "x") true;;
                          add_payload "tag" (PyStr "y") true) w))
    = <["tag" := PyList [PyStr "x"; PyStr "y"]]> ∅.
Proof.
  cbv zeta. split; [reflexivity|].
  pose proof (add_payload_spec (__init__ (lib := reference_requests) None)
                (__init__ (lib := reference_requests) None)
                "tag" (PyStr "x") (PyStr "y") eq_refl) as (_ & Hover & _ & Happ).
  split; [exact Hover|exact Happ].
Defined.

(** Appending to a key whose value is not a list raises. *)
Example add_payload_append_to_str :
  let w := exec (add_payload "tag" (PyStr "x") false)
             (__init__ (lib := reference_requests) None) in
  run (add_payload "tag" (PyStr "y") true) w
  = (Raise (AttributeError "'str' object has no attribute 'append'"), w).
Proof. vm_compute. done. Qed.

(** *** Send *)

(** Assigning the headers they already have changes nothing. *)
Lemma assign_headers_same (s : TcExRequest) : assign_headers (_headers s) s = s.
Proof. by destruct s. Qed.

(** [send], once the request is prepared and the callback has returned:
    what it returns or raises, by what the session answers, and the world
    it leaves. *)
Lemma send_run {lib : Requests} (w : World) (stream : bool)
    (request_prepped : PreparedRequest) (returned : gmap string string) :
  prepare (api_request (self w)) = Return request_prepped →
  authorization_returned (self w) request_prepped returned →
  let s' := assign_headers (returned ∪ _headers (self w)) (self w) in
  let calls := calls_of_send (self w) returned request_prepped stream in
  run (send stream) w
  = match session_send (session (self w))
            (final_request (self w) returned request_prepped)
            (_proxies (self w)) (_timeout (self w)) (_verify_ssl (self w)) stream with
    | Return response =>
        (Return response,
         {| self := s';
            trace := trace w ++ calls
                     ++ [EvLogInfo ("Status Code: " +:+ str_of_Z (status_code response))] |})
    | Raise e =>
        (Raise (if isinstance_Exception e
                then RuntimeError (failed_request_message e) else e),
         {| self := s'; trace := trace w ++ calls |})
    end.
Proof.
  destruct w as [s t]. cbn [self trace].
  unfold authorization_returned, calls_of_send, final_request.
  intros Hprepare Hreturned.
  unfold send, try_except_Exception. run_monad. rewrite Hprepare.
  destruct (_authorization_method s) as [method|]; cbn.
  - rewrite Hreturned. cbn.
    case_session_send; cbn; [|destruct (isinstance_Exception _); cbn];
      by rewrite <- !app_assoc.
  - subst returned. rewrite (left_id_L ∅ (∪)), assign_headers_same.
    case_session_send; cbn; [|destruct (isinstance_Exception _); cbn];
      by rewrite <- ?app_assoc.
Qed.



(** With the reference library: the callback's header reaches the session
    when no basic authentication is set, and the Basic credentials replace
    it, or one set through the header map, when it is. *)
Example send_callback_header_is_sent :
  let w := exec (url_setter example_url;; authorization_method bearer_callback)
             (__init__ (lib := reference_requests) None) in
  (λ p, p_headers p !! "Authorization")
    <$> sent_requests (trace (exec (send (lib := reference_requests) false) w))
  = [Some "Bearer t"].
Proof. vm_compute. done. Qed.

Example send_basic_auth_replaces_callback_header :
  let w := exec (url_setter example_url;; authorization_method bearer_callback;;
                 basic_auth_setter (Some ("u", "p")))
             (__init__ (lib := reference_requests) None) in
  (λ p, p_headers p !! "Authorization")
    <$> sent_requests (trace (exec (send (lib := reference_requests) false) w))
  = [Some "Basic dTpw"]
  ∧ authorization_calls (trace (exec (send (lib := reference_requests) false) w))
    = [example_prepared].
Proof. vm_compute. done. Qed.

Example send_basic_auth_replaces_map_header :
  let w := exec (url_setter example_url;; authorization_setter "Token z";;
                 basic_auth_setter (Some ("u", "p")))
             (__init__ (lib := reference_requests) None) in
  (λ p, p_headers p !! "Authorization")
    <$> sent_requests (trace (exec (send (lib := reference_requests) false) w))
  = [Some "Basic dTpw"].
Proof. vm_compute. done. Qed.

(** [set_basic_auth] writes the same credentials into the header map. *)
Example set_basic_auth_header :
  run authorization (exec (set_basic_auth "u" "p") (__init__ (lib := reference_requests) None))
  = (Return (Some "Basic dTpw"),
     exec (set_basic_auth "u" "p") (__init__ (lib := reference_requests) None)).
Proof. vm_compute. done. Qed.

(** C9 as stated fails when the session raises an exception that is not an
    instance of [Exception]: a [KeyboardInterrupt] raised while the session
    sends leaves [send] as it is, not wrapped in a [RuntimeError]. *)
Lemma send_passes_keyboard_interrupt :
  let interrupt := SystemExiting "KeyboardInterrupt" "" in
  let w := exec (url_setter example_url)
             (__init__ (lib := reference_requests) (Some (constant_session (Raise interrupt)))) in
  session_send (session (self w)) example_prepared (_proxies (self w))
    (_timeout (self w)) (_verify_ssl (self w)) false = Raise interrupt
  ∧ (run (send (lib := reference_requests) false) w).1 = Raise interrupt
  ∧ ∀ msg, (run (send (lib := reference_requests) false) w).1 ≠ Raise (RuntimeError msg).
Proof.
  cbv zeta. split; [reflexivity|].
  assert (Hrun : (run (send (lib := reference_requests) false)
                    (exec (url_setter example_url)
                       (__init__ (lib := reference_requests)
                          (Some (constant_session
                                   (Raise (SystemExiting "KeyboardInterrupt" ""))))))).1
                 = Raise (SystemExiting "KeyboardInterrupt" ""))
    by (vm_compute; reflexivity).
  split; [exact Hrun|]. intros msg. rewrite Hrun. discriminate.
Qed.

(** C9, amended: when the session raises an exception [e] while it sends
    the prepared request, [send] raises a [RuntimeError] whose message is
    "Failed making HTTP request (" followed by the text of [e] and ")." if
    [e] is an instance of [Exception], as every error of the transport is;
    an exception that is not, such as [KeyboardInterrupt], leaves [send]
    unchanged. Nothing is logged in either case. *)
Theorem send_wraps_exception {lib : Requests} (w : World) (stream : bool)
    (request_prepped : PreparedRequest) (returned : gmap string string)
    (e : exception)
    (Hprepare : prepare (api_request (self w)) = Return request_prepped)
    (Hreturned : authorization_returned (self w) request_prepped returned)
    (Hraise : session_send (session (self w))
                (final_request (self w) returned request_prepped)
                (_proxies (self w)) (_timeout (self w)) (_verify_ssl (self w)) stream
              = Raise e) :
  (run (send stream) w).1
  = Raise (if isinstance_Exception e
           then RuntimeError ("Failed making HTTP request (" +:+ str_of_exception e +:+ ").")
           else e)
  ∧ trace (exec (send stream) w)
    = trace w ++ calls_of_send (self w) returned request_prepped stream.
Proof.
  unfold exec.
  rewrite (send_run w stream request_prepped returned Hprepare Hreturned).
  by rewrite Hraise.
Qed.

Lemma send_wraps_exception_witness :
  let refused := LibraryError "ConnectionError" "Connection refused" in
  let w := exec (url_setter example_url)
             (__init__ (lib := reference_requests) (Some (constant_session (Raise refused)))) in
  prepare (Requests := reference_requests) (api_request (self w)) = Return example_prepared
  ∧ authorization_returned (self w) example_prepared ∅
  ∧ isinstance_Exception refused = true
  ∧ (run (send (lib := reference_requests) false) w).1
    = Raise (RuntimeError "Failed making HTTP request (Connection refused).").
Proof.
  cbv zeta. split; [reflexivity|]. split; [reflexivity|]. split; [reflexivity|].
  exact (proj1 (send_wraps_exception (lib := reference_requests)
                  (exec (url_setter example_url)
                     (__init__ (lib := reference_requests)
                        (Some (constant_session
                                 (Raise (LibraryError "ConnectionError" "Connection refused"))))))
                  false example_prepared ∅
                  (LibraryError "ConnectionError" "Connection refused")
                  eq_refl eq_refl eq_refl)).
Defined.

(** *** The retry policy *)





(** Three responses 500 and then a 200: three retries, and the 200 is the
    result; a fourth 500 is surfaced. *)
Example urlopen_three_500_then_200 :
  urlopen 4 default_policy (λ n, if (n <? 3)%nat then Responded 500 else Responded 200) 0
  = Some ([Responded 500; Responded 500; Responded 500], Responded 200).
Proof. reflexivity. Qed.

Example urlopen_always_500 :
  urlopen 4 default_policy (λ _, Responded 500) 0
  = Some ([Responded 500; Responded 500; Responded 500], Responded 500).
Proof. reflexivity. Qed.

(** ** Further properties of [send] *)

(** Case analysis along [send]: the preparation, the callback, the answer of
    the session and the class of what it raised. *)
Ltac send_cases s :=
  unfold send, try_except_Exception; run_monad;
  destruct (prepare (api_request s)) as [?|?] eqn:?; cbn;
  [destruct (_authorization_method s) as [?method|] eqn:?; cbn;
   [match goal with
    | |- context [?m ?p] =>
        lazymatch type of (m p) with
        | outcome (gmap string string) => destruct (m p) as [?|?] eqn:?; cbn
        end
    end|];
   try (case_session_send; cbn; [|destruct (isinstance_Exception _) eqn:?; cbn])
  |].

(** The object after [send] is the one before with another header map. *)
Lemma send_self {lib : Requests} (stream : bool) (w : World) :
  self (exec (send stream) w)
  = assign_headers (_headers (self (exec (send stream) w))) (self w).
Proof.
  destruct w as [s t]. send_cases s; by rewrite ?assign_headers_same.
Qed.

(** X9: [send] assigns no attribute other than the header map: method, URL,
    body, payload, files, proxies, timeout, credentials, callback and
    session are after [send] what they were before. *)
Theorem send_changes_only_headers {lib : Requests} (stream : bool) (w : World) :
  let s := self w in
  let s' := self (exec (send stream) w) in
  s' = assign_headers (_headers s') s
  ∧ _http_method s' = _http_method s ∧ _url s' = _url s ∧ _body s' = _body s
  ∧ _payload s' = _payload s ∧ _files s' = _files s ∧ _proxies s' = _proxies s
  ∧ _timeout s' = _timeout s ∧ _basic_auth s' = _basic_auth s
  ∧ _authorization_method s' = _authorization_method s
  ∧ _content_type s' = _content_type s ∧ session s' = session s.
Proof.
  cbv zeta. split; [apply send_self|]. by rewrite (send_self stream w).
Qed.

(** X10: without an authorization callback, [send] leaves the object as it
    was, so it can be repeated on the same state. *)
Theorem send_without_callback_keeps_object {lib : Requests} (stream : bool) (w : World)
    (Hnone : _authorization_method (self w) = None) :
  self (exec (send stream) w) = self w.
Proof.
  destruct w as [s t]. cbn in Hnone. send_cases s; congruence.
Qed.

Lemma send_without_callback_keeps_object_witness :
  let w := exec (url_setter example_url) (__init__ (lib := reference_requests) None) in
  _authorization_method (self w) = None
  ∧ self (exec (send (lib := reference_requests) true) w) = self w.
Proof.
  cbv zeta. split; [reflexivity|].
  exact (send_without_callback_keeps_object (lib := reference_requests) true
           (exec (url_setter example_url) (__init__ (lib := reference_requests) None))
           eq_refl).
Defined.

(** X7: what [send] returns is the answer of the session to the one request
    it sent, and the status code of that answer is the one message logged;
    when [send] raises, nothing is logged. *)
Theorem send_result_and_log {lib : Requests} (stream : bool) (w : World) :
  ∃ new,
    trace (exec (send stream) w) = trace w ++ new
    ∧ match (run (send stream) w).1 with
      | Return response =>
          ∃ request,
            sent_requests new = [request]
            ∧ session_send (session (self w)) request (_proxies (self w))
                (_timeout (self w)) (_verify_ssl (self w)) stream
              = Return response
            ∧ log_messages new
              = ["Status Code: " +:+ str_of_Z (status_code response)]
      | Raise _ => log_messages new = []
      end.
Proof.
  destruct w as [s t]. send_cases s.
  all: try (eexists; split; [by rewrite <- ?app_assoc|]; cbn; by eauto).
  all: exists []; by rewrite app_nil_r.
Qed.

(** X12: one [send] calls the session at most once and the callback at
    most once; repeating a request is left to the session. *)
Theorem send_at_most_once {lib : Requests} (stream : bool) (w : World) :
  ∃ new,
    trace (exec (send stream) w) = trace w ++ new
    ∧ (length (sent_requests new) ≤ 1)%nat
    ∧ (length (authorization_calls new) ≤ 1)%nat.
Proof.
  destruct w as [s t]. send_cases s.
  all: try (eexists; split; [by rewrite <- ?app_assoc|]; cbn; lia).
  all: exists []; rewrite app_nil_r; cbn; split; [done|lia].
Qed.

(** X8: when the preparation of the request raises, as the library does for
    a missing or malformed URL, [send] raises that exception as it is, not
    wrapped in a [RuntimeError]; neither the callback nor the session is
    called and the object is unchanged. *)
Theorem send_prepare_raises {lib : Requests} (stream : bool) (w : World) (e : exception)
    (Hprepare : prepare (api_request (self w)) = Raise e) :
  run (send stream) w = (Raise e, w).
Proof.
  destruct w as [s t]. cbn in Hprepare. unfold send. run_monad. by rewrite Hprepare.
Qed.

Lemma send_prepare_raises_witness :
  let w := __init__ (lib := reference_requests) None in
  let e := LibraryError "MissingSchema" "Invalid URL 'None': No scheme supplied." in
  prepare (Requests := reference_requests) (api_request (self w)) = Raise e
  ∧ run (send (lib := reference_requests) false) w = (Raise e, w).
Proof.
  cbv zeta. split; [reflexivity|].
  exact (send_prepare_raises (lib := reference_requests) false
           (__init__ (lib := reference_requests) None)
           (LibraryError "MissingSchema" "Invalid URL 'None': No scheme supplied.")
           eq_refl).
Defined.

(** X11: when the authorization callback raises, [send] raises that
    exception as it is; the callback was invoked once, the header map is
    unchanged and the session is not called. *)
Theorem send_callback_raises {lib : Requests} (stream : bool) (w : World)
    (method : PreparedRequest -> outcome (gmap string string))
    (request_prepped : PreparedRequest) (e : exception)
    (Hmethod : _authorization_method (self w) = Some method)
    (Hprepare : prepare (api_request (self w)) = Return request_prepped)
    (Hraise : method request_prepped = Raise e) :
  run (send stream) w
  = (Raise e,
     {| self := self w; trace := trace w ++ [EvAuthorization request_prepped] |}).
Proof.
  destruct w as [s t]. cbn in *. unfold send. run_monad.
  rewrite Hprepare. cbn. rewrite Hmethod. cbn. by rewrite Hraise.
Qed.

Lemma send_callback_raises_witness :
  let w := exec (url_setter example_url;; authorization_method failing_callback)
             (__init__ (lib := reference_requests) None) in
  _authorization_method (self w) = Some failing_callback
  ∧ prepare (Requests := reference_requests) (api_request (self w))
    = Return example_prepared
  ∧ failing_callback example_prepared = Raise (LibraryError "ValueError" "no token")
  ∧ (run (send (lib := reference_requests) false) w).1
    = Raise (LibraryError "ValueError" "no token").
Proof.
  cbv zeta. split; [reflexivity|]. split; [reflexivity|]. split; [reflexivity|].
  exact (f_equal fst
           (send_callback_raises (lib := reference_requests) false
              (exec (url_setter example_url;; authorization_method failing_callback)
                 (__init__ (lib := reference_requests) None))
              failing_callback example_prepared
              (LibraryError "ValueError" "no token") eq_refl eq_refl eq_refl)).
Defined.

(** ** Invariants over sequences of calls *)

(** Case analysis on the tests a method makes. *)
Ltac method_cases :=
  repeat match goal with
    | |- context [if ?b then _ else _] => destruct b eqn:?
    | |- context [match ?x with _ => _ end] => destruct x eqn:?
    end.

(** The result of [send] is dropped without a change of the world. *)
Lemma exec_perform_send {lib : Requests} (stream : bool) (w : World) :
  exec (perform (Call_send stream)) w = exec (send stream) w.
Proof.
  cbn [perform]. unfold exec, run, mbind, M_bind, mret, M_ret.
  by destruct (send stream w) as [[?|?] ?].
Qed.

(** What one call keeps: the attributes no method assigns, and the shape
    of those it checks before it assigns them. *)
Lemma perform_keeps {lib : Requests} (c : method_call) (w : World) :
  let s := self w in
  let s' := self (exec (perform c) w) in
  _verify_ssl s' = _verify_ssl s
  ∧ _json s' = _json s
  ∧ session s' = session s
  ∧ (_http_method s ∈ valid_methods → _http_method s' ∈ valid_methods)
  ∧ (isinstance_int (_timeout s) = true → isinstance_int (_timeout s') = true)
  ∧ (_files s = PyNone ∨ isinstance_dict (_files s) = true →
     _files s' = PyNone ∨ isinstance_dict (_files s') = true).
Proof.
  cbv zeta. destruct c.
  19: { rewrite exec_perform_send, (send_self stream w). by cbn. }
  all: destruct w as [s t]; cbn [perform];
    unfold body_setter, json_setter, reset_headers, authorization_setter,
      authorization_method, basic_auth_setter, content_type_setter, set_basic_auth,
      authorization_setter, user_agent_setter, reset_payload, add_payload,
      http_method_setter, proxies_setter, timeout_setter, verify_ssl_setter,
      files_setter, url_setter, add_header, str_in;
    run_monad; cbn.
  all: method_cases; cbn; repeat split; try done; try (intros; by right).
  all: intros _; by apply (bool_decide_eq_true_1 (upper data ∈ valid_methods)).
Qed.

(** What one call adds to the trace: every session call in it is made with
    the [_verify_ssl] of the object. *)
Lemma perform_trace {lib : Requests} (c : method_call) (w : World) :
  ∃ new, trace (exec (perform c) w) = trace w ++ new
         ∧ Forall (λ v, v = _verify_ssl (self w)) (verify_arguments new).
Proof.
  destruct c.
  19: { rewrite exec_perform_send. apply send_verify_argument. }
  all: exists []; rewrite app_nil_r; split; [|constructor].
  all: destruct w as [s t]; cbn [perform];
    unfold body_setter, json_setter, reset_headers, authorization_setter,
      authorization_method, basic_auth_setter, content_type_setter, set_basic_auth,
      authorization_setter, user_agent_setter, reset_payload, add_payload,
      http_method_setter, proxies_setter, timeout_setter, verify_ssl_setter,
      files_setter, url_setter, add_header, str_in;
    run_monad; cbn.
  all: by method_cases.
Qed.

(** The attributes that a sequence of calls keeps, from any world. *)
Lemma perform_all_keeps {lib : Requests} (calls : list method_call) :
  ∀ w : World,
    let s := self w in
    let s' := self (perform_all calls w) in
    _verify_ssl s' = _verify_ssl s
    ∧ _json s' = _json s
    ∧ session s' = session s
    ∧ (_http_method s ∈ valid_methods → _http_method s' ∈ valid_methods)
    ∧ (isinstance_int (_timeout s) = true → isinstance_int (_timeout s') = true)
    ∧ (_files s = PyNone ∨ isinstance_dict (_files s) = true →
       _files s' = PyNone ∨ isinstance_dict (_files s') = true).
Proof.
  induction calls as [|c calls IH]; intros w; cbv zeta; [done|].
  cbn [perform_all].
  destruct (perform_keeps c w) as (Hv & Hj & Hs & Hm & Ht & Hf).
  destruct (IH (exec (perform c) w)) as (Hv' & Hj' & Hs' & Hm' & Ht' & Hf').
  rewrite Hv', Hj', Hs'. repeat split; auto.
Qed.

(** The session calls of a sequence of calls are all made with the
    [_verify_ssl] of the start, if those before were. *)
Lemma perform_all_verify {lib : Requests} (calls : list method_call) (v : pyval) :
  ∀ w : World,
    _verify_ssl (self w) = v →
    Forall (λ x, x = v) (verify_arguments (trace w)) →
    Forall (λ x, x = v) (verify_arguments (trace (perform_all calls w))).
Proof.
  induction calls as [|c calls IH]; intros w Hv Htrace; [done|].
  cbn [perform_all]. apply IH.
  - by rewrite (proj1 (perform_keeps c w)).
  - destruct (perform_trace c w) as (new & -> & Hnew).
    unfold verify_arguments in *. rewrite omap_app. apply Forall_app.
    split; [done|]. by rewrite <- Hv.
Qed.

(** X3: whatever methods are called on an object, in any order and whether
    they raise or not, the stored HTTP method is one of DELETE, GET, POST
    and PUT. *)
Theorem http_method_always_valid {lib : Requests} (session : option Session)
    (calls : list method_call) :
  _http_method (self (perform_all calls (__init__ session))) ∈ valid_methods.
Proof.
  apply (perform_all_keeps calls (__init__ session)).
  cbn. unfold valid_methods. rewrite !elem_of_cons. tauto.
Qed.

(** X4: whatever methods are called on an object, the setter of
    [verify_ssl] included, every call of the session is made with
    [verify=False]. *)
Theorem verify_always_false {lib : Requests} (session : option Session)
    (calls : list method_call) :
  _verify_ssl (self (perform_all calls (__init__ session))) = PyBool false
  ∧ Forall (λ v, v = PyBool false)
      (verify_arguments (trace (perform_all calls (__init__ session)))).
Proof.
  split.
  - by rewrite (proj1 (perform_all_keeps calls (__init__ session))).
  - apply perform_all_verify; [done|constructor].
Qed.

(** X5: whatever methods are called on an object, the stored timeout is an
    [int] (a [bool] included) and the stored files are [None] or a
    [dict]. *)
Theorem timeout_files_always_typed {lib : Requests} (session : option Session)
    (calls : list method_call) :
  isinstance_int (_timeout (self (perform_all calls (__init__ session)))) = true
  ∧ (_files (self (perform_all calls (__init__ session))) = PyNone
     ∨ isinstance_dict (_files (self (perform_all calls (__init__ session)))) = true).
Proof.
  destruct (perform_all_keeps calls (__init__ session)) as (_ & _ & _ & _ & Ht & Hf).
  split; [by apply Ht|apply Hf; by left].
Qed.

(** X6: no method replaces or changes the session: after any calls it is
    the one of the constructor, with the header User-Agent set to TcEx. *)
Theorem session_fixed_at_construction {lib : Requests} (given : option Session)
    (calls : list method_call) :
  session (self (perform_all calls (__init__ given))) = session (self (__init__ given))
  ∧ session_headers (session (self (perform_all calls (__init__ given))))
      !! "User-Agent" = Some "TcEx".
Proof.
  destruct (perform_all_keeps calls (__init__ given)) as (_ & _ & Hs & _).
  rewrite Hs. split; [done|]. cbn.
  apply lookup_union_Some_l. by rewrite lookup_singleton_eq.
Qed.

(** ** The session of an object *)




(** ** Further properties of the setters *)

(** X13: a value that is not [None] and has no length, an [int] for one, is
    stored as the body before [len] raises [TypeError]: the setter fails
    and the body is changed all the same, with the headers as they
    were. *)
Theorem body_setter_unsized (w : World) (data : pyval)
    (Hdata : data ≠ PyNone)
    (Hlen : py_len data = None) :
  run (body_setter data) w
  = (Raise (TypeError ("object of type '" +:+ type_name data +:+ "' has no len()")),
     {| self := assign_body data (self w); trace := trace w |}).
Proof.
  unfold body_setter.
  destruct data; try congruence; try discriminate Hlen; by run_monad.
Qed.

Lemma body_setter_unsized_witness :
  PyInt 5 ≠ PyNone
  ∧ py_len (PyInt 5) = None
  ∧ _body (self (exec (body_setter (PyInt 5)) (__init__ (lib := reference_requests) None)))
    = PyInt 5.
Proof.
  split; [discriminate|]. split; [reflexivity|].
  exact (f_equal (λ r, _body (self r.2))
           (body_setter_unsized (__init__ (lib := reference_requests) None) (PyInt 5)
              ltac:(discriminate) eq_refl)).
Defined.

(** X14: when [json.dumps] raises on the value, bytes for one, the setter
    of [json] raises that exception and leaves the object as it was: the
    body is assigned only after the serialization. *)
Theorem json_setter_failure (w : World) (data : pyval) (e : exception)
    (Hraise : json_dumps data = Raise e) :
  run (json_setter data) w = (Raise e, w).
Proof.
  unfold json_setter. destruct data; try discriminate Hraise;
    run_monad; by rewrite Hraise.
Qed.

Lemma json_setter_failure_witness :
  let e := TypeError "Object of type bytes is not JSON serializable" in
  let w := __init__ (lib := reference_requests) None in
  json_dumps (PyList [PyInt 1; PyBytes "x"]) = Raise e
  ∧ run (json_setter (PyList [PyInt 1; PyBytes "x"])) w = (Raise e, w).
Proof.
  cbv zeta. split; [reflexivity|].
  exact (json_setter_failure (__init__ (lib := reference_requests) None)
           (PyList [PyInt 1; PyBytes "x"])
           (TypeError "Object of type bytes is not JSON serializable") eq_refl).
Defined.

(** X15: the setter of [json] does not touch Content-Length: after a body
    of length [n] and then a JSON body, the body is the JSON text and the
    header Content-Length is still the text of [n]. *)
Theorem json_setter_keeps_content_length (w : World) (data data' : pyval)
    (n : nat) (dumped : string)
    (Hlen : py_len data = Some n)
    (Hdata : data' ≠ PyNone)
    (Hdumps : json_dumps data' = Return dumped) :
  let after := exec (body_setter data;; json_setter data') w in
  _body (self after) = PyStr dumped
  ∧ _headers (self after) !! "Content-Length" = Some (str_of_nat n)
  ∧ _headers (self after) !! "Content-Type" = Some "application/json"
  ∧ _headers (self (exec (json_setter data') w)) !! "Content-Length"
    = _headers (self w) !! "Content-Length".
Proof.
  cbv zeta. unfold exec, run, mbind, M_bind.
  pose proof (body_setter_sized w data n Hlen) as Hbody. unfold run in Hbody.
  rewrite Hbody.
  pose proof (json_setter_dumped w data' dumped Hdata Hdumps) as Hjson.
  unfold run in Hjson. rewrite Hjson.
  match goal with |- context [json_setter data' ?w1] =>
    pose proof (json_setter_dumped w1 data' dumped Hdata Hdumps) as Hjson1
  end.
  unfold run in Hjson1. rewrite Hjson1. cbn.
  repeat split.
  - rewrite lookup_insert_ne by done. by rewrite lookup_insert_eq.
  - by rewrite lookup_insert_eq.
  - by rewrite lookup_insert_ne.
Qed.

Lemma json_setter_keeps_content_length_witness :
  let after := exec (body_setter (PyStr "hello");; json_setter (PyList [PyInt 1; PyInt 2]))
                 (__init__ (lib := reference_requests) None) in
  py_len (PyStr "hello") = Some 5%nat
  ∧ PyList [PyInt 1; PyInt 2] ≠ PyNone
  ∧ json_dumps (PyList [PyInt 1; PyInt 2]) = Return "[1, 2]"
  ∧ _body (self after) = PyStr "[1, 2]"
  ∧ _headers (self after) !! "Content-Length" = Some "5".
Proof.
  cbv zeta. split; [reflexivity|]. split; [discriminate|]. split; [reflexivity|].
  pose proof (json_setter_keeps_content_length (__init__ (lib := reference_requests) None)
                (PyStr "hello") (PyList [PyInt 1; PyInt 2]) 5 "[1, 2]"
                eq_refl ltac:(discriminate) eq_refl) as (Hbody & Hlength & _).
  split; [exact Hbody|exact Hlength].
Defined.

(** X16: the setter of [json] writes the header Content-Type and not the
    attribute [_content_type]: after a content type [data] and then a JSON
    body, the header is application/json while the property
    [content_type] still returns [data]. *)
Theorem json_setter_after_content_type (w : World) (data : string) (data' : pyval)
    (dumped : string)
    (Hdata : data' ≠ PyNone)
    (Hdumps : json_dumps data' = Return dumped) :
  let after := exec (content_type_setter data;; json_setter data') w in
  run content_type after = (Return (Some data), after)
  ∧ _headers (self after) !! "Content-Type" = Some "application/json".
Proof.
  cbv zeta.
  assert (Hafter : exec (content_type_setter data;; json_setter data') w
                   = {| self :=
                          assign_headers
                            (<["Content-Type" := "application/json"]>
                               (<["Content-Type" := data]> (_headers (self w))))
                            (assign_body (PyStr dumped)
                               (assign_headers
                                  (<["Content-Type" := data]> (_headers (self w)))
                                  (assign_content_type (Some data) (self w))));
                        trace := trace w |}).
  { unfold exec, run, mbind, M_bind, content_type_setter, add_header. run_monad.
    match goal with |- context [json_setter data' ?w1] =>
      pose proof (json_setter_dumped w1 data' dumped Hdata Hdumps) as Hjson
    end.
    unfold run in Hjson. by rewrite Hjson. }
  rewrite Hafter. split; [done|]. cbn. by rewrite lookup_insert_eq.
Qed.

Lemma json_setter_after_content_type_witness :
  let after := exec (content_type_setter "text/xml";; json_setter (PyInt 7))
                 (__init__ (lib := reference_requests) None) in
  PyInt 7 ≠ PyNone
  ∧ json_dumps (PyInt 7) = Return "7"
  ∧ run content_type after = (Return (Some "text/xml"), after)
  ∧ _headers (self after) !! "Content-Type" = Some "application/json".
Proof.
  cbv zeta. split; [discriminate|]. split; [reflexivity|].
  exact (json_setter_after_content_type (__init__ (lib := reference_requests) None)
           "text/xml" (PyInt 7) "7" ltac:(discriminate) eq_refl).
Defined.

(** X17: [reset_headers] empties the header map and keeps [_content_type]:
    once a content type was set, resetting the headers and then assigning
    a valid method, POST and PUT included, leaves no header at all. *)
Theorem reset_headers_then_http_method (w : World) (data : string)
    (Hset : _content_type (self w) ≠ None)
    (Hvalid : upper data ∈ valid_methods) :
  let after := exec (reset_headers;; http_method_setter data) w in
  (run (reset_headers;; http_method_setter data) w).1 = Return tt
  ∧ _headers (self after) = ∅
  ∧ _http_method (self after) = upper data
  ∧ _content_type (self after) = _content_type (self w).
Proof.
  cbv zeta. destruct w as [s t]. cbn in Hset.
  unfold reset_headers, http_method_setter, str_in, add_header. run_monad. cbn.
  rewrite (bool_decide_eq_true_2 _ Hvalid). cbn.
  by rewrite (bool_decide_eq_false_2 _ Hset).
Qed.

Lemma reset_headers_then_http_method_witness :
  let w := exec (content_type_setter "text/xml") (__init__ (lib := reference_requests) None) in
  _content_type (self w) ≠ None
  ∧ upper "post" ∈ valid_methods
  ∧ _headers (self (exec (reset_headers;; http_method_setter "post") w)) = ∅.
Proof.
  cbv zeta.
  assert (Hset : _content_type
                   (self (exec (content_type_setter "text/xml")
                            (__init__ (lib := reference_requests) None))) ≠ None)
    by discriminate.
  assert (Hvalid : upper "post" ∈ valid_methods)
    by (apply (bool_decide_eq_true_1 _); reflexivity).
  split; [exact Hset|]. split; [exact Hvalid|].
  exact (proj1 (proj2
           (reset_headers_then_http_method
              (exec (content_type_setter "text/xml")
                 (__init__ (lib := reference_requests) None))
              "post" Hset Hvalid))).
Defined.



(** X19: appending to a key whose value is not a list, as a value stored
    without [append] is unless the caller passed a list, raises
    [AttributeError] and leaves the payload as it was. *)
Theorem add_payload_append_to_other (w : World) (key : string) (val old : pyval)
    (Hold : _payload (self w) !! key = Some old)
    (Hother : ∀ l, old ≠ PyList l) :
  run (add_payload key val true) w
  = (Raise (AttributeError ("'" +:+ type_name old
                            +:+ "' object has no attribute 'append'")), w).
Proof.
  unfold add_payload. run_monad. rewrite Hold. cbn.
  destruct old; try done. by destruct (Hother l).
Qed.

Lemma add_payload_append_to_other_witness :
  let w := exec (add_payload "tag" (PyStr "x") false)
             (__init__ (lib := reference_requests) None) in
  _payload (self w) !! "tag" = Some (PyStr "x")
  ∧ (∀ l, PyStr "x" ≠ PyList l)
  ∧ run (add_payload "tag" (PyStr "y") true) w
    = (Raise (AttributeError "'str' object has no attribute 'append'"), w).
Proof.
  cbv zeta. split; [reflexivity|]. split; [discriminate|].
  exact (add_payload_append_to_other
           (exec (add_payload "tag" (PyStr "x") false)
              (__init__ (lib := reference_requests) None))
           "tag" (PyStr "y") (PyStr "x") eq_refl ltac:(discriminate)).
Defined.

(** ** The credentials of [set_basic_auth] *)

(** A digit below 64 is read back as its value. *)
Lemma b64_value_digit (d : nat) : (d < 64)%nat → b64_value (b64_digit d) = Some d.
Proof.
  intros Hd. do 64 (destruct d as [|d]; [reflexivity|]). lia.
Qed.

(** The bytes of a group are read back from its digits. *)
Lemma b64_bytes (x y z : nat) :
  (x < 256)%nat → (y < 256)%nat → (z < 256)%nat →
  (x / 4 < 64 ∧ x mod 4 * 16 + y / 16 < 64 ∧ y mod 16 * 4 + z / 64 < 64
   ∧ z mod 64 < 64 ∧ x mod 4 * 16 < 64 ∧ y mod 16 * 4 < 64
   ∧ x / 4 * 4 + (x mod 4 * 16 + y / 16) / 16 = x
   ∧ (x mod 4 * 16 + y / 16) mod 16 * 16 + (y mod 16 * 4 + z / 64) / 4 = y
   ∧ (y mod 16 * 4 + z / 64) mod 4 * 64 + z mod 64 = z
   ∧ x / 4 * 4 + (x mod 4 * 16) / 16 = x
   ∧ (x mod 4 * 16 + y / 16) mod 16 * 16 + (y mod 16 * 4) / 4 = y)%nat.
Proof. intros Hx Hy Hz. zify. Z.div_mod_to_equations. lia. Qed.

(** Decoding what [b64encode] wrote gives the bytes back. *)
Lemma b64decode_b64encode (bytes : string) : b64decode (b64encode bytes) = Some bytes.
Proof.
  enough (Hall : b64decode (b64encode bytes) = Some bytes
                 ∧ (∀ a, b64decode (b64encode (String a bytes)) = Some (String a bytes))
                 ∧ (∀ a b, b64decode (b64encode (String a (String b bytes)))
                           = Some (String a (String b bytes))))
    by apply Hall.
  induction bytes as [|c bytes (IH0 & IH1 & IH2)].
  - split; [reflexivity|]. split.
    + intros a. pose proof (nat_ascii_bounded a) as Ha.
      destruct (b64_bytes (nat_of_ascii a) 0 0 Ha) as (H1 & _ & _ & _ & H2 & _ & _ & _ & _ & H3 & _);
        [lia..|].
      cbn [b64encode b64decode].
      rewrite (b64_value_digit _ H1), (b64_value_digit _ H2).
      change (b64_value "="%char) with (@None nat).
      change (is_pad "="%char) with true.
      rewrite bool_decide_eq_true_2 by done. cbn [andb].
      by rewrite H3, ascii_nat_embedding.
    + intros a b. pose proof (nat_ascii_bounded a) as Ha.
      pose proof (nat_ascii_bounded b) as Hb.
      destruct (b64_bytes (nat_of_ascii a) (nat_of_ascii b) 0 Ha Hb)
        as (H1 & H2 & _ & _ & _ & H3 & H4 & _ & _ & _ & H5); [lia|].
      cbn [b64encode b64decode].
      rewrite (b64_value_digit _ H1), (b64_value_digit _ H2), (b64_value_digit _ H3).
      change (b64_value "="%char) with (@None nat).
      change (is_pad "="%char) with true.
      rewrite bool_decide_eq_true_2 by done. cbn [andb].
      by rewrite H4, H5, !ascii_nat_embedding.
  - split; [apply IH1|]. split; [intros a; apply IH2|].
    intros a b. pose proof (nat_ascii_bounded a) as Ha.
    pose proof (nat_ascii_bounded b) as Hb. pose proof (nat_ascii_bounded c) as Hc.
    destruct (b64_bytes (nat_of_ascii a) (nat_of_ascii b) (nat_of_ascii c) Ha Hb Hc)
      as (H1 & H2 & H3 & H4 & _ & _ & H5 & H6 & H7 & _).
    cbn [b64encode b64decode].
    rewrite (b64_value_digit _ H1), (b64_value_digit _ H2),
      (b64_value_digit _ H3), (b64_value_digit _ H4).
    rewrite IH0. by rewrite H5, H6, H7, !ascii_nat_embedding.
Qed.

(** X20: [set_basic_auth] writes into the header map, under Authorization,
    the word Basic and a base64 text that decodes to the UTF-8 bytes of
    [username:password]; it leaves the other headers and the attribute
    [_basic_auth] as they were, so [send] applies no authentication of its
    own on its account. *)
Theorem set_basic_auth_credentials (w : World) (username password : string) :
  let after := exec (set_basic_auth username password) w in
  ∃ credentials,
    run authorization after = (Return (Some ("Basic " +:+ credentials)), after)
    ∧ b64decode credentials = Some (encode_utf8 (username +:+ ":" +:+ password))
    ∧ _basic_auth (self after) = _basic_auth (self w)
    ∧ ∀ key, key ≠ "Authorization" →
        _headers (self after) !! key = _headers (self w) !! key.
Proof.
  cbv zeta. exists (b64encode (encode_utf8 (username +:+ ":" +:+ password))).
  unfold set_basic_auth, authorization_setter, authorization, add_header,
    basic_credentials.
  run_monad. cbn. rewrite lookup_insert_eq.
  split; [done|]. split; [apply b64decode_b64encode|]. split; [done|].
  intros key Hkey. by rewrite lookup_insert_ne.
Qed.

(** Appending strings is associative. *)
Lemma string_app_assoc (x y z : string) : (x +:+ y) +:+ z = x +:+ (y +:+ z).
Proof. induction x as [|c x IH]; [done|]. exact (f_equal (String c) IH). Qed.

(** X21: the credentials are the base64 text of the user name, a colon and
    the password, so a colon in the user name is not told from the
    separator: the user [a:b] with password [c] and the user [a] with
    password [b:c] get the same header. *)
Theorem set_basic_auth_colon (w : World) (a b c : string) :
  exec (set_basic_auth (a +:+ ":" +:+ b) c) w
  = exec (set_basic_auth a (b +:+ ":" +:+ c)) w.
Proof.
  unfold set_basic_auth, basic_credentials.
  by rewrite string_app_assoc.
Qed.

(** X22: the property [user_agent] is the header User-agent of the request
    map, not the header User-Agent of the session: on a fresh object the
    getter returns [None] although the session carries TcEx; the setter is
    read back by the getter and leaves the session as it was. *)
Theorem user_agent_is_not_the_session_header {lib : Requests} (given : option Session)
    (data : string) :
  let w := __init__ given in
  let after := exec (user_agent_setter data) w in
  run user_agent w = (Return None, w)
  ∧ run user_agent after = (Return (Some data), after)
  ∧ session (self after) = session (self w)
  ∧ session_headers (session (self after)) !! "User-Agent" = Some "TcEx"
  ∧ _headers (self after) !! "User-Agent" = None.
Proof.
  cbv zeta. unfold user_agent, user_agent_setter, add_header. run_monad. cbn.
  rewrite lookup_insert_eq. repeat split.
  apply lookup_union_Some_l. by rewrite lookup_singleton_eq.
Qed.

(** X23: after [reset_payload], appending to any key returns normally,
    whatever the key held before, and the payload is that key alone with
    the list of the one value. *)
Theorem reset_payload_then_append (w : World) (key : string) (val : pyval) :
  let after := exec (reset_payload;; add_payload key val true) w in
  (run (reset_payload;; add_payload key val true) w).1 = Return tt
  ∧ _payload (self after) = {[key := PyList [val]]}
  ∧ _headers (self after) = _headers (self w).
Proof.
  cbv zeta. unfold reset_payload, add_payload. run_monad. cbn.
  by rewrite lookup_empty.
Qed.
